(** * Tebak Angka: the Flask number-guessing game of [game/game_tebak.py]

    The program keeps one game per player in the Flask session, a dict
    with the keys ['secret'], ['attempts'], ['history'] and ['finished'],
    and serves three routes: [GET /] ([index]), [POST /guess] ([guess])
    and [POST /reset] ([reset]).

    The session is modelled as a finite map from keys to Python values,
    the handlers as programs of a state-and-exception monad over the
    session object, written statement by statement as in the source, and
    a request as one run of a handler between Flask's loading and saving
    of the session cookie. *)

From Stdlib Require Import ZArith String Ascii DecimalString Lia.
From stdpp Require Import gmap strings list.

Open Scope string_scope.
Open Scope list_scope.
Open Scope Z_scope.

(** ** Python values *)

Module Py.

(** The values the program stores in the session or hands to the
    template: [None], booleans, integers (unbounded, as Python's are) and
    lists of integers. *)
Inductive pyval : Type :=
| VNone
| VBool (b : bool)
| VInt (z : Z)
| VList (l : list Z).

Inductive exn : Type :=
| KeyError (k : string)
| TypeError
| AttributeError.

Inductive result (A : Type) : Type :=
| Return (a : A)
| Raise (e : exn).
Arguments Return {A} a.
Arguments Raise {A} e.

(** [bool] is a subclass of [int]: [True] counts as 1 and [False] as 0 in
    arithmetic and comparisons; [None] and lists do not take part. *)
Definition int_view (v : pyval) : option Z :=
  match v with
  | VInt z => Some z
  | VBool b => Some (Z.b2z b)
  | VNone | VList _ => None
  end.

(** Truth value of an object, as [if v:] tests it. *)
Definition truthy (v : pyval) : bool :=
  match v with
  | VNone => false
  | VBool b => b
  | VInt z => negb (z =? 0)
  | VList l => match l with [] => false | _ :: _ => true end
  end.

(** [a - v] with an integer on the left. *)
Definition int_sub (a : Z) (v : pyval) : result Z :=
  match int_view v with Some z => Return (a - z) | None => Raise TypeError end.

(** [v + b] with an integer on the right. Adding an integer to a list or
    to [None] is a [TypeError]. *)
Definition add_int (v : pyval) (b : Z) : result Z :=
  match int_view v with Some z => Return (z + b) | None => Raise TypeError end.

(** [a == v] with an integer on the left: never raises, and is [False]
    against [None] and lists. *)
Definition int_eq (a : Z) (v : pyval) : bool :=
  match int_view v with Some z => a =? z | None => false end.

(** [a < v] with an integer on the left. *)
Definition int_lt (a : Z) (v : pyval) : result bool :=
  match int_view v with Some z => Return (a <? z) | None => Raise TypeError end.

(** [v >= b] with an integer on the right. *)
Definition ge_int (v : pyval) (b : Z) : result bool :=
  match int_view v with Some z => Return (b <=? z) | None => Raise TypeError end.

(** [str(z)] for an integer: decimal digits, with a minus sign for
    negatives. *)
Definition str_int (z : Z) : string := NilZero.string_of_int (Z.to_int z).

(** [str(v)], as an f-string formats [{v}]. *)
Definition str (v : pyval) : string :=
  match v with
  | VNone => "None"
  | VBool true => "True"
  | VBool false => "False"
  | VInt z => str_int z
  | VList l => ("[" ++ String.concat ", " (map str_int l) ++ "]")%string
  end.

(** *** [str.strip()] and [int(str)]

    A character of the model is a code point below 256. Input holding
    code points beyond that (the other Unicode spaces and decimal digits)
    is outside the model. *)

Definition code (c : ascii) : nat := nat_of_ascii c.

(** [c.isspace()]: what [str.strip()] removes at both ends. *)
Definition isspace (c : ascii) : bool :=
  let n := code c in
  ((9 <=? n) && (n <=? 13) || (28 <=? n) && (n <=? 32)
   || (n =? 133) || (n =? 160))%nat.

(** The white space [int] skips around the literal: the ASCII white
    space, and the spaces beyond ASCII, which it first turns into [' ']. *)
Definition int_space (c : ascii) : bool :=
  let n := code c in
  ((9 <=? n) && (n <=? 13) || (n =? 32) || (n =? 133) || (n =? 160))%nat.

Definition isdigit (c : ascii) : bool :=
  let n := code c in ((48 <=? n) && (n <=? 57))%nat.

Definition underscore : ascii := "_"%char.

Definition is_underscore (c : ascii) : bool := bool_decide (c = underscore).

Definition digit_value (c : ascii) : Z := Z.of_nat (code c) - 48.

Fixpoint lstrip (f : ascii -> bool) (s : list ascii) : list ascii :=
  match s with
  | [] => []
  | c :: s' => if f c then lstrip f s' else s
  end.

Definition rstrip (f : ascii -> bool) (s : list ascii) : list ascii :=
  rev (lstrip f (rev s)).

Definition strip (s : string) : string :=
  string_of_list_ascii (rstrip isspace (lstrip isspace (list_ascii_of_string s))).

(** The longest prefix of digits and underscores, and what follows it. *)
Fixpoint digit_run (s : list ascii) : list ascii * list ascii :=
  match s with
  | [] => ([], [])
  | c :: s' =>
      if isdigit c || is_underscore c
      then let '(run, rest) := digit_run s' in (c :: run, rest)
      else ([], s)
  end.

(** Underscores may only separate digits: none in front, none at the
    end, no two in a row; and the literal is not empty. [prev] tells
    whether the character before was an underscore (or the start). *)
Fixpoint grouped (prev : bool) (run : list ascii) : bool :=
  match run with
  | [] => negb prev
  | c :: run' =>
      if is_underscore c then negb prev && grouped true run'
      else grouped false run'
  end.

Definition decimal_value (ds : list ascii) : Z :=
  fold_left (fun acc c => 10 * acc + digit_value c) ds 0.

Section Int.

(** [sys.get_int_max_str_digits()]: longer literals are refused by
    interpreters that have the limit (4300 unless configured); 0 turns
    the limit off, and is also how an interpreter without it behaves.
    The limit only applies to literals of more than 640 digits. *)
Variable int_max_str_digits : nat.

Definition too_long (ndigits : nat) : bool :=
  ((640 <? ndigits) && (0 <? int_max_str_digits)
   && (int_max_str_digits <? ndigits))%nat.

(** [int(s)] in base 10; [None] stands for [ValueError]. *)
Definition int (s : string) : option Z :=
  let s1 := lstrip int_space (list_ascii_of_string s) in
  let '(negative, s2) :=
    match s1 with
    | "+"%char :: r => (false, r)
    | "-"%char :: r => (true, r)
    | _ => (false, s1)
    end in
  let '(run, rest) := digit_run s2 in
  if grouped true run && bool_decide (lstrip int_space rest = []) then
    let ds := filter (fun c => isdigit c = true) run in
    if too_long (length ds) then None
    else Some (if negative then - decimal_value ds else decimal_value ds)
  else None.

End Int.

End Py.

Import Py.

(** ** The session object and the handlers' monad *)

(** [flask.session] during one request: the dict, and the flag Flask
    raises when a key is assigned. Flask writes the cookie back only when
    the flag is up; changing a list that the dict holds, in place, does
    not raise it. *)
Record SessionObj : Type := { data : gmap string pyval; modified : bool }.

(** A handler runs on the session object and either returns a value or
    raises; what it did to the session before raising stays done. *)
Definition M (A : Type) : Type := SessionObj -> result A * SessionObj.

Definition ret {A} (a : A) : M A := fun so => (Return a, so).

Definition bind {A B} (m : M A) (k : A -> M B) : M B :=
  fun so =>
    match m so with
    | (Return a, so') => k a so'
    | (Raise e, so') => (Raise e, so')
    end.

Definition lift {A} (r : result A) : M A := fun so => (r, so).

Notation "x <- m ;; k" := (bind m (fun x => k))
  (at level 100, m at next level, right associativity).
Notation "m ;; k" := (bind m (fun _ => k))
  (at level 100, right associativity).

(** ['k' in session] *)
Definition contains (k : string) : M bool :=
  fun so =>
    (Return match data so !! k with Some _ => true | None => false end, so).

(** [session.get(k, d)] *)
Definition get (k : string) (d : pyval) : M pyval :=
  fun so => (Return (default d (data so !! k)), so).

(** [session[k]] *)
Definition getitem (k : string) : M pyval :=
  fun so =>
    match data so !! k with
    | Some v => (Return v, so)
    | None => (Raise (KeyError k), so)
    end.

(** [session[k] = v] *)
Definition setitem (k : string) (v : pyval) : M unit :=
  fun so => (Return tt, {| data := <[k := v]> (data so); modified := true |}).

(** [session[k].append(g)]: the list stored under [k] grows in place;
    the session's flag is left as it was. *)
Definition append (k : string) (g : Z) : M unit :=
  fun so =>
    match data so !! k with
    | None => (Raise (KeyError k), so)
    | Some (VList l) =>
        (Return tt,
         {| data := <[k := VList (l ++ [g])]> (data so);
            modified := modified so |})
    | Some _ => (Raise AttributeError, so)
    end.

(** ** Responses *)

(** What a handler returns: the template with its arguments, or a
    redirect. The template text itself is a constant and left out. *)
Inductive Response : Type :=
| render_template_string
    (remaining : Z) (message : option string) (alert_type : string)
    (finished : pyval) (secret : pyval) (history : pyval)
| redirect (location : string).

(** The routes of the three endpoints. *)
Definition url_for (endpoint : string) : string :=
  if bool_decide (endpoint = "index") then "/"
  else if bool_decide (endpoint = "guess") then "/guess"
  else if bool_decide (endpoint = "reset") then "/reset"
  else "".

(** ** The game *)

Definition MIN_NUM : Z := 1.
Definition MAX_NUM : Z := 100.
Definition MAX_ATTEMPTS : Z := 10.

(** [random.randint(a, b)]. The library returns [a + r] for a number
    [r] with [0 <= r < b - a + 1] that its generator picks. What the
    generator does is not part of the program: [draw] is the number it
    yields for this call, and [draw mod (b - a + 1)] stands for [r].
    Every [draw] gives a value of [a..b] ([randint_range]) and every
    value of [a..b] comes from some [draw] ([randint_onto]). *)
Definition randint (a b : Z) (draw : Z) : Z := a + draw mod (b - a + 1).

Definition init_game (draw : Z) : M unit :=
  setitem "secret" (VInt (randint MIN_NUM MAX_NUM draw)) ;;
  setitem "attempts" (VInt 0) ;;
  setitem "history" (VList []) ;;
  setitem "finished" (VBool false).

Definition index (draw : Z) : M Response :=
  has <- contains "secret" ;;
  (if negb has then init_game draw else ret tt) ;;
  a <- get "attempts" (VInt 0) ;;
  remaining <- lift (int_sub MAX_ATTEMPTS a) ;;
  fin <- get "finished" (VBool false) ;;
  sec <- get "secret" VNone ;;
  his <- get "history" VNone ;;
  ret (render_template_string remaining None "info" fin sec his).

Section Guess.

Variable int_max_str_digits : nat.

Definition guess (form : gmap string string) (draw : Z) : M Response :=
  has <- contains "secret" ;;
  (if negb has then init_game draw else ret tt) ;;
  fin <- get "finished" (VBool false) ;;
  if truthy fin then ret (redirect (url_for "index")) else
  let guess_raw := strip (default "" (form !! "guess")) in
  match int int_max_str_digits guess_raw with
  | None =>
      let message := "Masukkan angka valid." in
      a <- getitem "attempts" ;;
      remaining <- lift (int_sub MAX_ATTEMPTS a) ;;
      sec <- get "secret" VNone ;;
      his <- get "history" VNone ;;
      ret (render_template_string remaining (Some message) "warning"
             (VBool false) sec his)
  | Some g =>
      if (g <? MIN_NUM) || (g >? MAX_NUM) then
        let message :=
          ("Angka harus antara " ++ str_int MIN_NUM ++ " dan "
             ++ str_int MAX_NUM ++ ".")%string in
        a <- getitem "attempts" ;;
        remaining <- lift (int_sub MAX_ATTEMPTS a) ;;
        sec <- get "secret" VNone ;;
        his <- get "history" VNone ;;
        ret (render_template_string remaining (Some message) "warning"
               (VBool false) sec his)
      else
        a <- get "attempts" (VInt 0) ;;
        a1 <- lift (add_int a 1) ;;
        setitem "attempts" (VInt a1) ;;
        append "history" g ;;
        secret <- getitem "secret" ;;
        if int_eq g secret then
          setitem "finished" (VBool true) ;;
          a <- getitem "attempts" ;;
          let message :=
            ("Selamat! Tebakan Anda benar dalam " ++ str a
               ++ " percobaan.")%string in
          a <- getitem "attempts" ;;
          remaining <- lift (int_sub MAX_ATTEMPTS a) ;;
          his <- get "history" VNone ;;
          ret (render_template_string remaining (Some message) "success"
                 (VBool true) secret his)
        else
          a <- getitem "attempts" ;;
          spent <- lift (ge_int a MAX_ATTEMPTS) ;;
          if spent : bool then
            setitem "finished" (VBool true) ;;
            let message := "Maaf, Anda kehabisan tebakan. Game berakhir." in
            his <- get "history" VNone ;;
            ret (render_template_string 0 (Some message) "danger"
                   (VBool true) secret his)
          else
            below <- lift (int_lt g secret) ;;
            let hint :=
              if below : bool then "Terlalu kecil." else "Terlalu besar." in
            a <- getitem "attempts" ;;
            remaining <- lift (int_sub MAX_ATTEMPTS a) ;;
            let message :=
              (hint ++ " Sisa tebakan: " ++ str_int remaining ++ ".")%string in
            his <- get "history" VNone ;;
            ret (render_template_string remaining (Some message) "info"
                   (VBool false) secret his)
  end.

End Guess.

Definition reset (draw : Z) : M Response :=
  init_game draw ;;
  ret (redirect (url_for "index")).

(** ** Requests *)

Inductive Request : Type :=
| GET_index
| POST_guess (form : gmap string string)
| POST_reset.

(** What the client gets: the handler's response, or the error page when
    the handler raised. *)
Inductive Reply : Type :=
| Sent (r : Response)
| ServerError (e : exn).

Section Server.

Variable int_max_str_digits : nat.

Definition dispatch (req : Request) (draw : Z) : M Response :=
  match req with
  | GET_index => index draw
  | POST_guess form => guess int_max_str_digits form draw
  | POST_reset => reset draw
  end.

(** One request: Flask loads the session from the cookie, runs the
    handler, and stores the session again if a key was assigned. The
    application runs with [debug=True], where an exception of the
    handler goes to the debugger and the cookie stays as it was.
    [draw] is what the random generator yields during this request. *)
Definition serve (draw : Z) (req : Request) (cookie : gmap string pyval)
  : Reply * gmap string pyval :=
  match dispatch req draw {| data := cookie; modified := false |} with
  | (Return resp, so) =>
      (Sent resp, if modified so then data so else cookie)
  | (Raise e, _) => (ServerError e, cookie)
  end.

(** A player's requests one after the other, each with its draw: the
    replies in order, and the session at the end. *)
Fixpoint play (reqs : list (Z * Request)) (cookie : gmap string pyval)
  : list Reply * gmap string pyval :=
  match reqs with
  | [] => ([], cookie)
  | (draw, req) :: reqs' =>
      let '(reply, cookie') := serve draw req cookie in
      let '(replies, cookie'') := play reqs' cookie' in
      (reply :: replies, cookie'')
  end.

End Server.

(** ** The game state a session holds *)

(** The GameSession of the data model. *)
Record GameSession : Type :=
  { secret : Z; attempts : Z; history : list Z; finished : bool }.

(** The game a session dict holds under its four keys, when each is
    there with a value of the kind [init_game] stores. *)
Definition game_of (s : gmap string pyval) : option GameSession :=
  match s !! "secret", s !! "attempts", s !! "history", s !! "finished" with
  | Some (VInt n), Some (VInt a), Some (VList h), Some (VBool f) =>
      Some {| secret := n; attempts := a; history := h; finished := f |}
  | _, _, _, _ => None
  end.

(** The form field as the handler reads and parses it:
    [int(request.form.get('guess', '').strip())]. *)
Definition parsed (int_max_str_digits : nat) (form : gmap string string)
  : option Z :=
  int int_max_str_digits (strip (default "" (form !! "guess"))).

(** The guess is inside the range of the game. *)
Definition in_range (g : Z) : Prop := MIN_NUM <= g <= MAX_NUM.

(** The messages of the template, as the handler composes them. *)
Definition msg_invalid : string := "Masukkan angka valid.".
Definition msg_range : string := "Angka harus antara 1 dan 100.".
Definition msg_success (tries : Z) : string :=
  ("Selamat! Tebakan Anda benar dalam " ++ str_int tries ++ " percobaan.")%string.
Definition msg_exhausted : string :=
  "Maaf, Anda kehabisan tebakan. Game berakhir.".
Definition msg_too_low (remaining : Z) : string :=
  ("Terlalu kecil. Sisa tebakan: " ++ str_int remaining ++ ".")%string.
Definition msg_too_high (remaining : Z) : string :=
  ("Terlalu besar. Sisa tebakan: " ++ str_int remaining ++ ".")%string.

(** The game after a guess that counts, and the page shown for it. *)
Definition counted (gs : GameSession) (g : Z) : GameSession :=
  {| secret := secret gs;
     attempts := attempts gs + 1;
     history := history gs ++ [g];
     finished := (g =? secret gs) || (MAX_ATTEMPTS <=? attempts gs + 1) |}.

Definition page_after (gs : GameSession) (g : Z) : Response :=
  let tries := attempts gs + 1 in
  let left := MAX_ATTEMPTS - tries in
  let shown := VList (history gs ++ [g]) in
  if g =? secret gs then
    render_template_string left (Some (msg_success tries)) "success"
      (VBool true) (VInt (secret gs)) shown
  else if MAX_ATTEMPTS <=? tries then
    render_template_string 0 (Some msg_exhausted) "danger"
      (VBool true) (VInt (secret gs)) shown
  else
    render_template_string left
      (Some (if g <? secret gs then msg_too_low left else msg_too_high left))
      "info" (VBool false) (VInt (secret gs)) shown.

(** A new game with the given secret. *)
Definition fresh (n : Z) : GameSession :=
  {| secret := n; attempts := 0; history := []; finished := false |}.

(** A guess request with its draw. *)
Definition guess_request (input : Z * gmap string string) : Z * Request :=
  (input.1, POST_guess input.2).

(** The reply is a page that shows the game still open. *)
Definition open_page (r : Reply) : bool :=
  match r with
  | Sent (render_template_string _ _ _ (VBool false) _ _) => true
  | _ => false
  end.

(** The bounds the attempts counter keeps. *)
Definition bounded (gs : GameSession) : Prop :=
  0 <= attempts gs <= MAX_ATTEMPTS /\
  (finished gs = false -> attempts gs < MAX_ATTEMPTS).

(** The input parses to [g], a guess in range that is not the secret. *)
Definition misses (int_max_str_digits : nat) (gs : GameSession)
    (input : Z * gmap string string) (g : Z) : Prop :=
  parsed int_max_str_digits input.2 = Some g /\ in_range g /\ g <> secret gs.

(** Sessions, forms and games to try the handlers on. *)
Definition session_of (gs : GameSession) : gmap string pyval :=
  {[ "secret" := VInt (secret gs); "attempts" := VInt (attempts gs);
     "history" := VList (history gs); "finished" := VBool (finished gs) ]}.

Definition form_of (text : string) : gmap string string :=
  {[ "guess" := text ]}.

Definition game_after_three : GameSession :=
  {| secret := 42; attempts := 3; history := [50; 25; 37]; finished := false |}.

Definition game_after_nine : GameSession :=
  {| secret := 42; attempts := 9; history := [1; 2; 3; 4; 5; 6; 7; 8; 9];
     finished := false |}.

Definition game_won : GameSession :=
  {| secret := 42; attempts := 3; history := [10; 70; 42]; finished := true |}.

Definition ten_misses : list (Z * gmap string string) :=
  map (fun text => (0, form_of text))
    ["1"; "2"; "3"; "4"; "5"; "6"; "7"; "8"; "9"; "10"].

(** A view; fourteen guesses, of which one does not parse, one is out of
    range, ten count and miss, and the last two come after the end; a
    view, a reset and a winning guess. *)
Definition long_visit : list (Z * Request) :=
  (0, GET_index)
  :: map (fun text => (0, POST_guess (form_of text)))
       ["50"; "x"; "25"; "37"; "0"; "43"; "40"; "41"; "44"; "45"; "46"; "47";
        "48"; "42"]
  ++ [(0, GET_index); (141, POST_reset); (0, POST_guess (form_of "42"))].

(** ** Further notions *)

(** The session as [init_game] leaves it. *)
Definition started (draw : Z) (s : gmap string pyval) : gmap string pyval :=
  data (init_game draw {| data := s; modified := false |}).2.

(** The keys the handlers work on. *)
Definition game_keys : list string :=
  ["secret"; "attempts"; "history"; "finished"].

(** The same request played on the game alone: the page and the game
    that [serve] arrives at for a session holding the game [gs]. It is
    what the handlers are compared with, one request at a time, in
    [serve_turn]. *)
Definition turn (int_max_str_digits : nat) (draw : Z) (req : Request)
    (gs : GameSession) : Response * GameSession :=
  match req with
  | GET_index =>
      (render_template_string (MAX_ATTEMPTS - attempts gs) None "info"
         (VBool (finished gs)) (VInt (secret gs)) (VList (history gs)), gs)
  | POST_reset =>
      (redirect "/", fresh (randint MIN_NUM MAX_NUM draw))
  | POST_guess form =>
      if finished gs then (redirect "/", gs) else
      match parsed int_max_str_digits form with
      | None =>
          (render_template_string (MAX_ATTEMPTS - attempts gs)
             (Some msg_invalid) "warning" (VBool false) (VInt (secret gs))
             (VList (history gs)), gs)
      | Some g =>
          if (g <? MIN_NUM) || (g >? MAX_NUM) then
            (render_template_string (MAX_ATTEMPTS - attempts gs)
               (Some msg_range) "warning" (VBool false) (VInt (secret gs))
               (VList (history gs)), gs)
          else (page_after gs g, counted gs g)
      end
  end.

(** What holds of the game of every session the handlers produce. *)
Definition sound (gs : GameSession) : Prop :=
  in_range (secret gs)
  /\ attempts gs = Z.of_nat (length (history gs))
  /\ Forall in_range (history gs)
  /\ attempts gs <= MAX_ATTEMPTS
  /\ (finished gs = true <->
      last (history gs) = Some (secret gs) \/ attempts gs = MAX_ATTEMPTS)
  /\ secret gs ∉ removelast (history gs).


(** The request is a view or a guess. *)
Definition keeps_game (r : Z * Request) : bool :=
  match r.2 with POST_reset => false | _ => true end.

(** The form holds what [guess] counts on an open game: an integer
    literal in range. *)
Definition countable (int_max_str_digits : nat)
    (form : gmap string string) : bool :=
  match parsed int_max_str_digits form with
  | Some g => negb ((g <? MIN_NUM) || (g >? MAX_NUM))
  | None => false
  end.

(** The requests that can change a session that holds a game: resets,
    and guesses that can be counted. *)
Definition leaves_trace (int_max_str_digits : nat) (r : Z * Request) : bool :=
  match r.2 with
  | GET_index => false
  | POST_guess form => countable int_max_str_digits form
  | POST_reset => true
  end.

(** Views and guesses, no reset. *)
Definition quiet_visit : list (Z * Request) :=
  [(0, GET_index); (0, POST_guess (form_of "55")); (0, POST_guess (form_of "x"));
   (0, GET_index); (0, POST_guess (form_of "42"))].

(** ** Running a handler symbolically *)

Ltac unfold_handlers :=
  unfold serve, dispatch, guess, index, reset, init_game, bind, ret, lift,
    contains, get, getitem, setitem, append.

Ltac lookup_step :=
  match goal with
  | H : ?s !! ?k = _ |- context [?s !! ?k] => rewrite H
  | |- context [<[?k := _]> _ !! ?k] => rewrite lookup_insert_eq
  | |- context [<[?k := _]> _ !! ?k'] =>
      rewrite (lookup_insert_ne _ k k') by done
  end.

Ltac exec :=
  repeat (cbn [data modified default from_option id negb orb andb truthy
               int_sub add_int int_view int_eq int_lt ge_int];
          try lookup_step).

(** ** Basic facts *)

Lemma game_of_lookup (s : gmap string pyval) (gs : GameSession) :
  game_of s = Some gs ->
  s !! "secret" = Some (VInt (secret gs)) /\
  s !! "attempts" = Some (VInt (attempts gs)) /\
  s !! "history" = Some (VList (history gs)) /\
  s !! "finished" = Some (VBool (finished gs)).
Proof.
  unfold game_of. intros H.
  destruct (s !! "secret") as [[| |n|]|]; try discriminate.
  destruct (s !! "attempts") as [[| |a|]|]; try discriminate.
  destruct (s !! "history") as [[| | |h]|]; try discriminate.
  destruct (s !! "finished") as [[|f| |]|]; try discriminate.
  injection H as <-. auto.
Qed.

Lemma lookup_game_of (s : gmap string pyval) (n a : Z) (h : list Z) (f : bool) :
  s !! "secret" = Some (VInt n) ->
  s !! "attempts" = Some (VInt a) ->
  s !! "history" = Some (VList h) ->
  s !! "finished" = Some (VBool f) ->
  game_of s = Some {| secret := n; attempts := a; history := h; finished := f |}.
Proof. unfold game_of. intros -> -> -> ->. reflexivity. Qed.

Lemma game_of_session_of (gs : GameSession) : game_of (session_of gs) = Some gs.
Proof. destruct gs. reflexivity. Qed.

Lemma below_MIN_NUM (g : Z) : in_range g -> (g <? MIN_NUM) = false.
Proof. unfold in_range. intros H. apply Z.ltb_ge. lia. Qed.

Lemma above_MAX_NUM (g : Z) : in_range g -> (g >? MAX_NUM) = false.
Proof. unfold in_range. intros H. rewrite Z.gtb_ltb. apply Z.ltb_ge. lia. Qed.

Lemma out_of_range (g : Z) :
  ~ in_range g -> (g <? MIN_NUM) || (g >? MAX_NUM) = true.
Proof.
  unfold in_range. intros H. rewrite Z.gtb_ltb.
  destruct (Z.ltb_spec g MIN_NUM); [reflexivity|].
  destruct (Z.ltb_spec MAX_NUM g); [reflexivity|]. lia.
Qed.

Lemma randint_range (a b draw : Z) : a <= b -> a <= randint a b draw <= b.
Proof.
  intros Hab. unfold randint.
  pose proof (Z.mod_pos_bound draw (b - a + 1)). lia.
Qed.

Lemma randint_onto (a b n : Z) : a <= n <= b -> randint a b (n - a) = n.
Proof. intros H. unfold randint. rewrite Z.mod_small; lia. Qed.

(** ** One request *)

Section Steps.

Variable lim : nat.
Variable draw : Z.

(** A guess in range on an open game: the three outcomes at once. *)
Lemma serve_guess_counted form (s : gmap string pyval) gs g :
  game_of s = Some gs -> finished gs = false ->
  parsed lim form = Some g -> in_range g ->
  exists s', serve lim draw (POST_guess form) s = (Sent (page_after gs g), s')
             /\ game_of s' = Some (counted gs g).
Proof.
  intros Hs Hf Hp Hr. apply game_of_lookup in Hs as (Hn & Ha & Hh & Hfin).
  unfold parsed in Hp. unfold page_after, counted.
  unfold_handlers. exec. rewrite Hf. exec. rewrite Hp.
  rewrite (below_MIN_NUM g Hr), (above_MAX_NUM g Hr). exec.
  destruct (g =? secret gs) eqn:Hhit; exec.
  - eexists. split; [reflexivity|].
    apply lookup_game_of; exec; reflexivity.
  - destruct (MAX_ATTEMPTS <=? attempts gs + 1) eqn:Hspent; exec.
    + eexists. split; [reflexivity|].
      apply lookup_game_of; exec; reflexivity.
    + eexists. split.
      * destruct (g <? secret gs); reflexivity.
      * apply lookup_game_of; exec; try reflexivity.
        rewrite Hf. reflexivity.
Qed.

(** A guess that does not parse, or is out of range, on an open game. *)
Lemma serve_guess_rejected form (s : gmap string pyval) gs :
  game_of s = Some gs -> finished gs = false ->
  (forall g, parsed lim form = Some g -> ~ in_range g) ->
  serve lim draw (POST_guess form) s =
    (Sent (render_template_string (MAX_ATTEMPTS - attempts gs)
             (Some (match parsed lim form with
                    | Some _ => msg_range
                    | None => msg_invalid
                    end))
             "warning" (VBool false) (VInt (secret gs))
             (VList (history gs))),
     s).
Proof.
  intros Hs Hf Hp. apply game_of_lookup in Hs as (Hn & Ha & Hh & Hfin).
  unfold parsed in *. unfold_handlers. exec. rewrite Hf. exec.
  destruct (int lim _) as [g|].
  - rewrite (out_of_range g (Hp g eq_refl)). exec. reflexivity.
  - exec. reflexivity.
Qed.

(** Any guess on a game that is over. *)
Lemma serve_guess_over form (s : gmap string pyval) gs :
  game_of s = Some gs -> finished gs = true ->
  serve lim draw (POST_guess form) s = (Sent (redirect "/"), s).
Proof.
  intros Hs Hf. apply game_of_lookup in Hs as (Hn & Ha & Hh & Hfin).
  unfold_handlers. exec. rewrite Hf. exec. reflexivity.
Qed.

(** The page of a game that exists. *)
Lemma serve_index_game (s : gmap string pyval) gs :
  game_of s = Some gs ->
  serve lim draw GET_index s =
    (Sent (render_template_string (MAX_ATTEMPTS - attempts gs) None "info"
             (VBool (finished gs)) (VInt (secret gs)) (VList (history gs))),
     s).
Proof.
  intros Hs. apply game_of_lookup in Hs as (Hn & Ha & Hh & Hfin).
  unfold_handlers. exec. reflexivity.
Qed.

(** A reset, whatever the session was. *)
Lemma serve_reset (s : gmap string pyval) :
  exists s', serve lim draw POST_reset s = (Sent (redirect "/"), s')
             /\ game_of s' = Some (fresh (randint MIN_NUM MAX_NUM draw)).
Proof.
  unfold_handlers. exec. eexists. split; [reflexivity|].
  apply lookup_game_of; exec; reflexivity.
Qed.

(** The first visit: no session yet, and the page of a new game. *)
Lemma serve_index_first (s : gmap string pyval) :
  s !! "secret" = None ->
  exists s', serve lim draw GET_index s =
               (Sent (render_template_string MAX_ATTEMPTS None "info"
                        (VBool false)
                        (VInt (randint MIN_NUM MAX_NUM draw)) (VList [])),
                s')
             /\ game_of s' = Some (fresh (randint MIN_NUM MAX_NUM draw)).
Proof.
  intros Hn. unfold_handlers. exec. eexists. split; [reflexivity|].
  apply lookup_game_of; exec; reflexivity.
Qed.

(** Whatever the session holds beside it, a session with a secret is
    left alone by [index], also when the handler raises. *)
Lemma serve_index_existing (s : gmap string pyval) :
  is_Some (s !! "secret") -> (serve lim draw GET_index s).2 = s.
Proof.
  intros [v Hv]. unfold_handlers. exec.
  repeat case_match; simplify_eq; reflexivity.
Qed.

(** Nor does [guess] touch the secret of such a session, on any path. *)
Lemma serve_guess_secret form (s : gmap string pyval) :
  is_Some (s !! "secret") ->
  (serve lim draw (POST_guess form) s).2 !! "secret" = s !! "secret".
Proof.
  intros [v Hv]. unfold_handlers. exec.
  repeat (case_match; exec; simplify_eq; try done).
  all: cbn [snd]; exec; try done.
Qed.

End Steps.

(** ** Several requests *)

Lemma play_app lim (reqs1 reqs2 : list (Z * Request)) (s : gmap string pyval) :
  play lim (reqs1 ++ reqs2) s =
    let '(replies1, s1) := play lim reqs1 s in
    let '(replies2, s2) := play lim reqs2 s1 in
    (replies1 ++ replies2, s2).
Proof.
  revert s. induction reqs1 as [|[d r] reqs1 IH]; intros s; simpl.
  - destruct (play lim reqs2 s). reflexivity.
  - destruct (serve lim d r s) as [reply s1]. rewrite IH.
    destruct (play lim reqs1 s1) as [replies1 s2].
    destruct (play lim reqs2 s2). reflexivity.
Qed.

(** ** The properties of the specification

    In what follows [lim] is the interpreter's [int_max_str_digits],
    [draw] the number the random generator yields during the request,
    [s] the session as the cookie holds it before the request, and [gs]
    the game it holds. The properties hold for all of them. *)

(** C1. On a game that is not finished, a guess equal to the secret (a
    number of 1..100, as every secret is) sets [finished] to true and
    shows the success message, at every value of the attempts counter:
    the comparison with the secret comes before the test for exhaustion,
    so the tenth attempt wins as well. *)
Theorem guess_secret_succeeds lim draw form (s : gmap string pyval) gs :
  game_of s = Some gs -> finished gs = false -> in_range (secret gs) ->
  parsed lim form = Some (secret gs) ->
  exists s',
    serve lim draw (POST_guess form) s =
      (Sent (render_template_string (MAX_ATTEMPTS - (attempts gs + 1))
               (Some (msg_success (attempts gs + 1))) "success" (VBool true)
               (VInt (secret gs)) (VList (history gs ++ [secret gs]))),
       s')
    /\ game_of s' =
         Some {| secret := secret gs; attempts := attempts gs + 1;
                 history := history gs ++ [secret gs]; finished := true |}.
Proof.
  intros Hs Hf Hr Hp.
  destruct (serve_guess_counted lim draw form s gs _ Hs Hf Hp Hr)
    as (s' & Hserve & Hgame).
  exists s'. unfold page_after, counted in *.
  rewrite Z.eqb_refl in *. split; assumption.
Qed.

(** The tenth attempt of a game with secret 42 is 42. *)
Lemma guess_secret_succeeds_witness :
  exists s',
    serve 4300 0 (POST_guess (form_of "42")) (session_of game_after_nine) =
      (Sent (render_template_string 0
               (Some "Selamat! Tebakan Anda benar dalam 10 percobaan.")
               "success" (VBool true) (VInt 42)
               (VList [1; 2; 3; 4; 5; 6; 7; 8; 9; 42])),
       s')
    /\ game_of s' =
         Some {| secret := 42; attempts := 10;
                 history := [1; 2; 3; 4; 5; 6; 7; 8; 9; 42];
                 finished := true |}.
Proof.
  apply (guess_secret_succeeds 4300 0 (form_of "42")
           (session_of game_after_nine) game_after_nine).
  - reflexivity.
  - reflexivity.
  - unfold in_range, MIN_NUM, MAX_NUM. simpl. lia.
  - vm_compute. reflexivity.
Defined.

(** C3. On a game that is not finished, an input that is not an integer
    literal, or is one outside 1..100, gets a warning (the one for its
    kind of error) and the session is stored exactly as it was. *)
Theorem rejected_guess_keeps_session lim draw form (s : gmap string pyval) gs :
  game_of s = Some gs -> finished gs = false ->
  (parsed lim form = None \/
   exists g, parsed lim form = Some g /\ (g < MIN_NUM \/ MAX_NUM < g)) ->
  serve lim draw (POST_guess form) s =
    (Sent (render_template_string (MAX_ATTEMPTS - attempts gs)
             (Some (match parsed lim form with
                    | None => msg_invalid
                    | Some _ => msg_range
                    end))
             "warning" (VBool false) (VInt (secret gs)) (VList (history gs))),
     s).
Proof.
  intros Hs Hf Hbad. apply (serve_guess_rejected lim draw form s gs Hs Hf).
  intros g Hg. unfold in_range.
  destruct Hbad as [Hnone | (g' & Hg' & Hout)]; [congruence|].
  assert (g' = g) as -> by congruence. lia.
Qed.

(** The input "abc" on a game at its fourth attempt. *)
Lemma rejected_guess_keeps_session_witness :
  serve 4300 0 (POST_guess (form_of "abc")) (session_of game_after_three) =
    (Sent (render_template_string 7 (Some "Masukkan angka valid.") "warning"
             (VBool false) (VInt 42) (VList [50; 25; 37])),
     session_of game_after_three).
Proof.
  apply (rejected_guess_keeps_session 4300 0 (form_of "abc")
           (session_of game_after_three) game_after_three).
  - reflexivity.
  - reflexivity.
  - left. vm_compute. reflexivity.
Defined.

(** C4. On a game that is not finished, a guess [g] in 1..100 adds one to
    [attempts] and puts [g] at the end of [history]. *)
Theorem valid_guess_counts lim draw form (s : gmap string pyval) gs g :
  game_of s = Some gs -> finished gs = false ->
  parsed lim form = Some g -> in_range g ->
  exists gs',
    game_of (serve lim draw (POST_guess form) s).2 = Some gs'
    /\ attempts gs' = attempts gs + 1
    /\ history gs' = history gs ++ [g]
    /\ secret gs' = secret gs.
Proof.
  intros Hs Hf Hp Hr.
  destruct (serve_guess_counted lim draw form s gs g Hs Hf Hp Hr)
    as (s' & Hserve & Hgame).
  exists (counted gs g). rewrite Hserve. simpl. auto.
Qed.

(** The guess 70 after 50, 25 and 37. *)
Lemma valid_guess_counts_witness :
  exists gs',
    game_of (serve 4300 0 (POST_guess (form_of " 70 "))
               (session_of game_after_three)).2
      = Some gs'
    /\ attempts gs' = 3 + 1
    /\ history gs' = [50; 25; 37] ++ [70]
    /\ secret gs' = 42.
Proof.
  apply (valid_guess_counts 4300 0 (form_of " 70 ")
           (session_of game_after_three) game_after_three 70).
  - reflexivity.
  - reflexivity.
  - vm_compute. reflexivity.
  - unfold in_range, MIN_NUM, MAX_NUM. lia.
Defined.

(** C5. On a game that is not finished, a guess in 1..100 that misses the
    secret and is not the last attempt shows "Terlalu kecil." (too low)
    when it is below the secret and "Terlalu besar." (too high) when it
    is above, with the number of attempts left, and the game stays
    open. *)
Theorem miss_gives_hint lim draw form (s : gmap string pyval) gs g :
  game_of s = Some gs -> finished gs = false ->
  parsed lim form = Some g -> in_range g ->
  g <> secret gs -> attempts gs + 1 < MAX_ATTEMPTS ->
  exists s',
    serve lim draw (POST_guess form) s =
      (Sent (render_template_string (MAX_ATTEMPTS - (attempts gs + 1))
               (Some (if g <? secret gs
                      then msg_too_low (MAX_ATTEMPTS - (attempts gs + 1))
                      else msg_too_high (MAX_ATTEMPTS - (attempts gs + 1))))
               "info" (VBool false) (VInt (secret gs))
               (VList (history gs ++ [g]))),
       s')
    /\ game_of s' =
         Some {| secret := secret gs; attempts := attempts gs + 1;
                 history := history gs ++ [g]; finished := false |}.
Proof.
  intros Hs Hf Hp Hr Hmiss Hleft.
  destruct (serve_guess_counted lim draw form s gs g Hs Hf Hp Hr)
    as (s' & Hserve & Hgame).
  exists s'. unfold page_after, counted in *.
  apply Z.eqb_neq in Hmiss. apply Z.leb_gt in Hleft.
  rewrite Hmiss, Hleft in *. split; assumption.
Qed.

(** The first guess, 10, of a game with secret 42. *)
Lemma miss_gives_hint_witness :
  exists s',
    serve 4300 0 (POST_guess (form_of "10")) (session_of (fresh 42)) =
      (Sent (render_template_string 9
               (Some "Terlalu kecil. Sisa tebakan: 9.") "info" (VBool false)
               (VInt 42) (VList [10])),
       s')
    /\ game_of s' =
         Some {| secret := 42; attempts := 1; history := [10];
                 finished := false |}.
Proof.
  apply (miss_gives_hint 4300 0 (form_of "10") (session_of (fresh 42))
           (fresh 42) 10).
  - reflexivity.
  - reflexivity.
  - vm_compute. reflexivity.
  - unfold in_range, MIN_NUM, MAX_NUM. lia.
  - simpl. lia.
  - unfold MAX_ATTEMPTS. simpl. lia.
Defined.

(** C6. Whatever the session held, a reset leaves a game whose secret is
    in 1..100, with no attempts, an empty history and [finished] false. *)
Theorem reset_starts_fresh lim draw (s : gmap string pyval) :
  exists n s',
    serve lim draw POST_reset s = (Sent (redirect (url_for "index")), s')
    /\ in_range n
    /\ game_of s' =
         Some {| secret := n; attempts := 0; history := []; finished := false |}.
Proof.
  destruct (serve_reset lim draw s) as (s' & Hserve & Hgame).
  exists (randint MIN_NUM MAX_NUM draw), s'. repeat split.
  - exact Hserve.
  - apply randint_range. unfold MIN_NUM, MAX_NUM. lia.
  - apply randint_range. unfold MIN_NUM, MAX_NUM. lia.
  - exact Hgame.
Qed.

(** C7. The secret of a session stays what it is under every request
    that is not a reset: [guess] keeps it for every input, and so does
    [index]. A secret is assigned only by a reset, or by the first
    request of a session that has none. *)
Theorem secret_is_fixed lim draw req (s : gmap string pyval) :
  is_Some (s !! "secret") -> req <> POST_reset ->
  (serve lim draw req s).2 !! "secret" = s !! "secret".
Proof.
  intros Hsome Hreq. destruct req as [|form|].
  - rewrite serve_index_existing by assumption. reflexivity.
  - apply serve_guess_secret. assumption.
  - contradiction.
Qed.

(** A winning guess keeps the secret 42. *)
Lemma secret_is_fixed_witness :
  (serve 4300 7 (POST_guess (form_of "42")) (session_of (fresh 42))).2
    !! "secret"
  = session_of (fresh 42) !! "secret".
Proof.
  apply (secret_is_fixed 4300 7 (POST_guess (form_of "42"))
           (session_of (fresh 42))).
  - vm_compute. eexists. reflexivity.
  - discriminate.
Defined.

(** C8. For a session that holds a game, the view shows that game (the
    attempts left, the history, the finished flag) and stores the session
    exactly as it was. No session changes under the view unless it had
    no secret: a game is only created when there is none. *)
Theorem view_keeps_session lim draw (s : gmap string pyval) gs :
  game_of s = Some gs ->
  serve lim draw GET_index s =
    (Sent (render_template_string (MAX_ATTEMPTS - attempts gs) None "info"
             (VBool (finished gs)) (VInt (secret gs)) (VList (history gs))),
     s)
  /\ (forall s0 : gmap string pyval,
        (serve lim draw GET_index s0).2 <> s0 -> s0 !! "secret" = None).
Proof.
  intros Hs. split.
  - apply serve_index_game. assumption.
  - intros s0 Hchanged. destruct (s0 !! "secret") as [v|] eqn:Hv; [|reflexivity].
    exfalso. apply Hchanged. apply serve_index_existing. rewrite Hv. eauto.
Qed.

(** The view of a game at its fourth attempt. *)
Lemma view_keeps_session_witness :
  serve 4300 5 GET_index (session_of game_after_three) =
    (Sent (render_template_string 7 None "info" (VBool false) (VInt 42)
             (VList [50; 25; 37])),
     session_of game_after_three)
  /\ (forall s0 : gmap string pyval,
        (serve 4300 5 GET_index s0).2 <> s0 -> s0 !! "secret" = None).
Proof.
  apply (view_keeps_session 4300 5 (session_of game_after_three)
           game_after_three).
  reflexivity.
Defined.

(** C9. On a game that is finished, [guess] redirects to the index
    whatever the form holds, and the session is stored as it was: the
    guess is not counted and not recorded. *)
Theorem guess_after_end_ignored lim draw form (s : gmap string pyval) gs :
  game_of s = Some gs -> finished gs = true ->
  serve lim draw (POST_guess form) s = (Sent (redirect (url_for "index")), s).
Proof. intros Hs Hf. apply (serve_guess_over lim draw form s gs Hs Hf). Qed.

(** A guess after the game was won at the third attempt. *)
Lemma guess_after_end_ignored_witness :
  serve 4300 0 (POST_guess (form_of "55")) (session_of game_won)
  = (Sent (redirect "/"), session_of game_won).
Proof.
  apply (guess_after_end_ignored 4300 0 (form_of "55") (session_of game_won)
           game_won).
  - reflexivity.
  - reflexivity.
Defined.

(** C2 and C10 are about runs of requests. *)

(** Misses that do not use up the attempts: hints all along, and the
    game is still open afterwards. *)
Lemma play_misses lim (inputs : list (Z * gmap string string)) (values : list Z) :
  forall (s : gmap string pyval) gs,
    game_of s = Some gs -> finished gs = false ->
    Forall2 (misses lim gs) inputs values ->
    attempts gs + Z.of_nat (length values) < MAX_ATTEMPTS ->
    exists replies s',
      play lim (map guess_request inputs) s = (replies, s')
      /\ Forall (fun r => open_page r = true) replies
      /\ game_of s' =
           Some {| secret := secret gs;
                   attempts := attempts gs + Z.of_nat (length values);
                   history := history gs ++ values; finished := false |}.
Proof.
  revert values.
  induction inputs as [|input inputs IH]; intros values s gs Hs Hf Hall Hlt.
  - apply Forall2_nil_inv_l in Hall as ->.
    exists [], s. cbn [map play length]. repeat split; [constructor|].
    rewrite Hs. destruct gs as [n a h f]. cbn in *. subst f.
    rewrite Z.add_0_r, app_nil_r. reflexivity.
  - apply Forall2_cons_inv_l in Hall as (g & values' & (Hp & Hr & Hmiss) & Hall & ->).
    cbn [length] in Hlt. rewrite Nat2Z.inj_succ in Hlt.
    destruct (serve_guess_counted lim input.1 input.2 s gs g Hs Hf Hp Hr)
      as (s1 & Hserve & Hgame).
    assert (Hopen : page_after gs g =
                    render_template_string (MAX_ATTEMPTS - (attempts gs + 1))
                      (Some (if g <? secret gs
                             then msg_too_low (MAX_ATTEMPTS - (attempts gs + 1))
                             else msg_too_high (MAX_ATTEMPTS - (attempts gs + 1))))
                      "info" (VBool false) (VInt (secret gs))
                      (VList (history gs ++ [g]))).
    { unfold page_after. apply Z.eqb_neq in Hmiss. rewrite Hmiss.
      replace (MAX_ATTEMPTS <=? attempts gs + 1) with false
        by (symmetry; apply Z.leb_gt; lia).
      reflexivity. }
    assert (Hcounted : counted gs g =
                       {| secret := secret gs; attempts := attempts gs + 1;
                          history := history gs ++ [g]; finished := false |}).
    { unfold counted. apply Z.eqb_neq in Hmiss. rewrite Hmiss.
      replace (MAX_ATTEMPTS <=? attempts gs + 1) with false
        by (symmetry; apply Z.leb_gt; lia).
      reflexivity. }
    rewrite Hcounted in Hgame.
    destruct (IH values' s1 _ Hgame eq_refl) as (replies & s' & Hplay & Hopens & Hend).
    + exact Hall.
    + cbn [attempts]. lia.
    + exists (Sent (page_after gs g) :: replies), s'.
      cbn [map play guess_request]. rewrite Hserve, Hplay. repeat split.
      * constructor; [rewrite Hopen; reflexivity | exact Hopens].
      * rewrite Hend. cbn [secret attempts history length].
        rewrite Nat2Z.inj_succ, <- app_assoc. f_equal. f_equal. lia.
Qed.

(** C2. On a game that is not finished, when the guesses in range that
    were counted so far ([attempts]) and the ones that follow make
    exactly ten, none of them the secret: every reply before the last
    shows the game open, the last one is the exhaustion page with 0
    attempts left, and the session ends with [finished] true and ten
    attempts. On a new game the ten guesses all follow. *)
Theorem tenth_miss_exhausts lim (inputs : list (Z * gmap string string))
    (values : list Z) (s : gmap string pyval) gs :
  game_of s = Some gs -> finished gs = false ->
  attempts gs < MAX_ATTEMPTS ->
  Forall2 (misses lim gs) inputs values ->
  attempts gs + Z.of_nat (length values) = MAX_ATTEMPTS ->
  exists earlier s',
    play lim (map guess_request inputs) s =
      (earlier ++
         [Sent (render_template_string 0 (Some msg_exhausted) "danger"
                  (VBool true) (VInt (secret gs))
                  (VList (history gs ++ values)))],
       s')
    /\ Forall (fun r => open_page r = true) earlier
    /\ game_of s' =
         Some {| secret := secret gs; attempts := MAX_ATTEMPTS;
                 history := history gs ++ values; finished := true |}.
Proof.
  intros Hs Hf Hopen Hall Hten.
  induction values as [|g front _] using rev_ind.
  - cbn in Hten. lia.
  - apply Forall2_app_inv_r in Hall
      as (inputs1 & inputs2 & Hfront & Hlast & ->).
    apply Forall2_cons_inv_r in Hlast
      as (input & rest & (Hp & Hr & Hmiss) & Hnil & ->).
    apply Forall2_nil_inv_r in Hnil as ->.
    rewrite length_app in Hten. cbn [length] in Hten.
    destruct (play_misses lim inputs1 front s gs Hs Hf Hfront)
      as (earlier & s1 & Hplay & Hopens & Hgame); [lia|].
    destruct (serve_guess_counted lim input.1 input.2 s1 _ g Hgame eq_refl Hp Hr)
      as (s' & Hserve & Hend).
    exists earlier, s'. rewrite map_app, play_app, Hplay.
    cbn [map play guess_request]. rewrite Hserve.
    unfold page_after, counted in *. cbn [secret attempts history] in *.
    apply Z.eqb_neq in Hmiss. rewrite Hmiss in *.
    replace (MAX_ATTEMPTS <=? attempts gs + Z.of_nat (length front) + 1)
      with true in * by (symmetry; apply Z.leb_le; lia).
    rewrite <- app_assoc in *. repeat split.
    + exact Hopens.
    + rewrite Hend. cbn [orb]. f_equal. f_equal. lia.
Qed.

(** Ten misses, 1 to 10, on a new game with secret 42. *)
Lemma tenth_miss_exhausts_witness :
  exists earlier s',
    play 4300 (map guess_request ten_misses) (session_of (fresh 42)) =
      (earlier ++
         [Sent (render_template_string 0
                  (Some "Maaf, Anda kehabisan tebakan. Game berakhir.")
                  "danger" (VBool true) (VInt 42)
                  (VList [1; 2; 3; 4; 5; 6; 7; 8; 9; 10]))],
       s')
    /\ Forall (fun r => open_page r = true) earlier
    /\ game_of s' =
         Some {| secret := 42; attempts := 10;
                 history := [1; 2; 3; 4; 5; 6; 7; 8; 9; 10];
                 finished := true |}.
Proof.
  apply (tenth_miss_exhausts 4300 ten_misses [1; 2; 3; 4; 5; 6; 7; 8; 9; 10]
           (session_of (fresh 42)) (fresh 42)).
  - reflexivity.
  - reflexivity.
  - unfold MAX_ATTEMPTS. simpl. lia.
  - unfold ten_misses. cbn [map].
    repeat (constructor;
            [ split;
              [ vm_compute; reflexivity
              | split; [unfold in_range, MIN_NUM, MAX_NUM; lia | simpl; lia] ]
            | ]).
    constructor.
  - reflexivity.
Defined.

(** One request keeps the bounds of the attempts counter. *)
Lemma serve_bounded lim draw req (s : gmap string pyval) gs :
  game_of s = Some gs -> bounded gs ->
  exists gs', game_of (serve lim draw req s).2 = Some gs' /\ bounded gs'.
Proof.
  intros Hs [Hrange Hopen]. destruct req as [|form|].
  - rewrite (serve_index_game lim draw s gs Hs). exists gs. split; [exact Hs|].
    split; assumption.
  - destruct (finished gs) eqn:Hf.
    + rewrite (serve_guess_over lim draw form s gs Hs Hf). exists gs.
      split; [exact Hs|]. split; [assumption|]. intros Hno. congruence.
    + assert (Hcase : (exists g, parsed lim form = Some g /\ in_range g) \/
                      (forall g, parsed lim form = Some g -> ~ in_range g)).
      { destruct (parsed lim form) as [g|]; [|right; discriminate].
        assert (in_range g \/ ~ in_range g) as [Hin | Hout]
          by (unfold in_range; lia).
        - left. eauto.
        - right. intros g' [= <-]. exact Hout. }
      destruct Hcase as [(g & Hp & Hr) | Hbad].
      * destruct (serve_guess_counted lim draw form s gs g Hs Hf Hp Hr)
          as (s' & Hserve & Hgame).
        exists (counted gs g). rewrite Hserve. split; [exact Hgame|].
        specialize (Hopen eq_refl). unfold bounded, counted.
        cbn [attempts finished]. split; [lia|].
        intros Hstill. apply orb_false_iff in Hstill as [_ Hleft].
        apply Z.leb_gt in Hleft. exact Hleft.
      * rewrite (serve_guess_rejected lim draw form s gs Hs Hf Hbad).
        exists gs. split; [exact Hs|]. split; [assumption|]. intros _.
        apply Hopen. reflexivity.
  - destruct (serve_reset lim draw s) as (s' & Hserve & Hgame).
    exists (fresh (randint MIN_NUM MAX_NUM draw)). rewrite Hserve.
    split; [exact Hgame|]. unfold bounded, fresh, MAX_ATTEMPTS.
    cbn [attempts finished]. split; [lia|]. intros; lia.
Qed.

(** C10. From a new game, after any sequence of views, guesses and
    resets, the session holds a game with 0 <= attempts <= 10, and with
    attempts < 10 as long as it is not finished. *)
Theorem attempts_bounded lim (reqs : list (Z * Request))
    (s : gmap string pyval) n :
  game_of s = Some (fresh n) ->
  exists gs,
    game_of (play lim reqs s).2 = Some gs
    /\ 0 <= attempts gs <= MAX_ATTEMPTS
    /\ (finished gs = false -> attempts gs < MAX_ATTEMPTS).
Proof.
  intros Hs.
  assert (Hb : bounded (fresh n)).
  { unfold bounded, fresh, MAX_ATTEMPTS. cbn [attempts finished].
    split; [lia|]. intros; lia. }
  revert s Hs Hb. generalize (fresh n).
  induction reqs as [|[draw req] reqs IH]; intros gs s Hs Hb.
  - exists gs. split; [exact Hs|]. exact Hb.
  - destruct (serve_bounded lim draw req s gs Hs Hb) as (gs1 & Hs1 & Hb1).
    cbn [play]. destruct (serve lim draw req s) as [reply s1].
    destruct (IH gs1 s1 Hs1 Hb1) as (gs' & Hs' & Hb').
    destruct (play lim reqs s1) as [replies s2]. exists gs'. auto.
Qed.

(** A long visit to a new game with secret 42. *)
Lemma attempts_bounded_witness :
  exists gs,
    game_of (play 4300 long_visit (session_of (fresh 42))).2 = Some gs
    /\ 0 <= attempts gs <= MAX_ATTEMPTS
    /\ (finished gs = false -> attempts gs < MAX_ATTEMPTS).
Proof.
  apply (attempts_bounded 4300 long_visit (session_of (fresh 42)) 42).
  reflexivity.
Defined.

(** ** Further facts about the handlers *)

(** What a reset stores. *)
Lemma serve_reset_started lim draw (s : gmap string pyval) :
  serve lim draw POST_reset s = (Sent (redirect "/"), started draw s).
Proof. reflexivity. Qed.

Lemma game_of_started draw (s : gmap string pyval) :
  game_of (started draw s) = Some (fresh (randint MIN_NUM MAX_NUM draw)).
Proof.
  unfold started, init_game, bind, setitem. cbn [snd data].
  apply lookup_game_of; exec; reflexivity.
Qed.

(** On a session without a secret, [index] and [guess] start a game first,
    and go on as on a session that was just reset with the same draw. *)
Lemma serve_new_session lim draw req (s : gmap string pyval) :
  s !! "secret" = None -> req <> POST_reset ->
  serve lim draw req s = serve lim draw req (started draw s).
Proof.
  intros Hn Hreq. destruct req as [|form|]; [| |contradiction].
  - unfold started. unfold_handlers. cbn [snd]. exec. reflexivity.
  - unfold started. unfold_handlers. cbn [snd]. exec.
    destruct (int lim _) as [g|]; exec; [|reflexivity].
    destruct ((g <? MIN_NUM) || (g >? MAX_NUM)); exec; [reflexivity|].
    destruct (g =? randint MIN_NUM MAX_NUM draw); exec; [reflexivity|].
    change (MAX_ATTEMPTS <=? 0 + 1) with false. exec.
    reflexivity.
Qed.

(** Whatever the session holds, a handler leaves every key other than
    the four of the game as it found it. *)
Lemma serve_other_keys lim draw req (s : gmap string pyval) k :
  k ∉ game_keys -> (serve lim draw req s).2 !! k = s !! k.
Proof.
  unfold game_keys. intros Hk.
  apply not_elem_of_cons in Hk as [H1 Hk].
  apply not_elem_of_cons in Hk as [H2 Hk].
  apply not_elem_of_cons in Hk as [H3 Hk].
  apply not_elem_of_cons in Hk as [H4 _].
  destruct req as [|form|]; unfold_handlers.
  - repeat (case_match; exec; simplify_eq; try done).
    all: cbn [snd]; exec; try done.
  - repeat (case_match; exec; simplify_eq; try done).
    all: cbn [snd]; exec; try done.
  - cbn [snd]. exec. done.
Qed.

(** The handlers against the game played alone. *)
Lemma serve_turn lim draw req (s : gmap string pyval) gs :
  game_of s = Some gs ->
  exists s', serve lim draw req s = (Sent (turn lim draw req gs).1, s')
             /\ game_of s' = Some (turn lim draw req gs).2.
Proof.
  intros Hs. destruct req as [|form|]; cbn [turn].
  - exists s. rewrite (serve_index_game lim draw s gs Hs). auto.
  - destruct (finished gs) eqn:Hf.
    + exists s. rewrite (serve_guess_over lim draw form s gs Hs Hf). auto.
    + destruct (parsed lim form) as [g|] eqn:Hp.
      * destruct ((g <? MIN_NUM) || (g >? MAX_NUM)) eqn:Hout.
        -- exists s. rewrite (serve_guess_rejected lim draw form s gs Hs Hf).
           ++ rewrite Hp. auto.
           ++ intros g' Hg' Hin. assert (g' = g) as -> by congruence.
              rewrite (below_MIN_NUM g Hin), (above_MAX_NUM g Hin) in Hout.
              discriminate.
        -- apply (serve_guess_counted lim draw form s gs g Hs Hf Hp).
           apply orb_false_iff in Hout as [Hlo Hhi].
           apply Z.ltb_ge in Hlo. rewrite Z.gtb_ltb in Hhi.
           apply Z.ltb_ge in Hhi. split; assumption.
      * exists s. rewrite (serve_guess_rejected lim draw form s gs Hs Hf).
        -- rewrite Hp. auto.
        -- intros g' Hg'. congruence.
  - rewrite serve_reset_started. exists (started draw s).
    split; [reflexivity | apply game_of_started].
Qed.

(** An invariant of the game played alone, kept by the requests of some
    kind, is one of every run of such requests. *)
Lemma play_invariant_on lim (Q : Request -> Prop) (P : GameSession -> Prop) :
  (forall draw req gs, Q req -> P gs -> P (turn lim draw req gs).2) ->
  forall (reqs : list (Z * Request)) (s : gmap string pyval) gs,
    Forall (fun r => Q r.2) reqs ->
    game_of s = Some gs -> P gs ->
    exists gs', game_of (play lim reqs s).2 = Some gs' /\ P gs'.
Proof.
  intros Hturn reqs.
  induction reqs as [|[draw req] reqs IH]; intros s gs Hall Hs HP.
  - exists gs. auto.
  - apply Forall_cons in Hall as [Hreq Hall].
    destruct (serve_turn lim draw req s gs Hs) as (s1 & Hserve & Hs1).
    cbn [play]. rewrite Hserve.
    destruct (IH s1 _ Hall Hs1 (Hturn draw req gs Hreq HP)) as (gs' & Hs' & HP').
    destruct (play lim reqs s1) as [replies s2]. exists gs'. auto.
Qed.

Lemma play_invariant lim (P : GameSession -> Prop) :
  (forall draw req gs, P gs -> P (turn lim draw req gs).2) ->
  forall (reqs : list (Z * Request)) (s : gmap string pyval) gs,
    game_of s = Some gs -> P gs ->
    exists gs', game_of (play lim reqs s).2 = Some gs' /\ P gs'.
Proof.
  intros Hturn reqs s gs Hs HP.
  apply (play_invariant_on lim (fun _ => True) P) with (gs := gs).
  - intros draw req g _. apply Hturn.
  - apply Forall_forall. intros r _. exact I.
  - exact Hs.
  - exact HP.
Qed.

(** The same from a session that has no game yet, after one request at
    least. *)
Lemma play_invariant_new lim (P : GameSession -> Prop) :
  (forall n, in_range n -> P (fresh n)) ->
  (forall draw req gs, P gs -> P (turn lim draw req gs).2) ->
  forall (reqs : list (Z * Request)) (s : gmap string pyval),
    s !! "secret" = None -> reqs <> [] ->
    exists gs', game_of (play lim reqs s).2 = Some gs' /\ P gs'.
Proof.
  intros Hfresh Hturn reqs s Hn Hreqs.
  destruct reqs as [|[draw req] reqs]; [contradiction|].
  assert (Hnew : P (fresh (randint MIN_NUM MAX_NUM draw))).
  { apply Hfresh. apply randint_range. unfold MIN_NUM, MAX_NUM. lia. }
  assert (Hfirst : exists s1 gs1,
             (serve lim draw req s).2 = s1 /\ game_of s1 = Some gs1 /\ P gs1).
  { assert (req = POST_reset \/ req <> POST_reset) as [-> | Hreq]
      by (destruct req; auto; right; discriminate).
    - rewrite serve_reset_started. eexists (started draw s), _.
      split; [reflexivity|]. split; [apply game_of_started | exact Hnew].
    - rewrite (serve_new_session lim draw req s Hn Hreq).
      destruct (serve_turn lim draw req (started draw s) _
                  (game_of_started draw s)) as (s1 & Hserve & Hs1).
      rewrite Hserve. eexists s1, _. split; [reflexivity|]. split; [exact Hs1|].
      apply Hturn. exact Hnew. }
  destruct Hfirst as (s1 & gs1 & Hserve & Hs1 & HP1).
  cbn [play]. destruct (serve lim draw req s) as [reply s1']. cbn [snd] in Hserve.
  subst s1'.
  destruct (play_invariant lim P Hturn reqs s1 gs1 Hs1 HP1) as (gs' & Hs' & HP').
  destruct (play lim reqs s1) as [replies s2]. exists gs'. auto.
Qed.

Lemma in_front_or_last (x : Z) (l : list Z) :
  x ∈ l -> x ∈ removelast l \/ last l = Some x.
Proof.
  induction l as [|y l _] using rev_ind; intros Hx.
  - inversion Hx.
  - rewrite removelast_last, last_snoc.
    apply elem_of_app in Hx as [Hx | Hx]; [left; exact Hx|].
    apply list_elem_of_singleton in Hx as ->. right. reflexivity.
Qed.

Lemma sound_fresh n : in_range n -> sound (fresh n).
Proof.
  intros Hn. unfold sound, fresh, MAX_ATTEMPTS. cbn.
  repeat split; try (intros; first [discriminate | lia]); try apply Hn.
  - constructor.
  - intros [H | H]; [discriminate | lia].
  - intros H. inversion H.
Qed.

Lemma sound_counted gs g :
  sound gs -> finished gs = false -> in_range g -> sound (counted gs g).
Proof.
  intros (Hsec & Hlen & Hall & Hmax & Hfin & Hfront) Hf Hg.
  assert (Hopen : attempts gs < MAX_ATTEMPTS).
  { destruct (Z.eq_dec (attempts gs) MAX_ATTEMPTS) as [Heq|]; [|lia].
    assert (finished gs = true) by (apply Hfin; auto). congruence. }
  assert (Hnot : secret gs ∉ history gs).
  { intros Hin. apply in_front_or_last in Hin as [Hin | Hlast]; [contradiction|].
    assert (finished gs = true) by (apply Hfin; auto). congruence. }
  unfold sound, counted. cbn [secret attempts history finished].
  rewrite length_app, Nat2Z.inj_add, removelast_last, last_snoc. cbn [length].
  repeat split; try apply Hsec; try lia.
  - apply Forall_app. split; [exact Hall|]. constructor; [exact Hg | constructor].
  - intros Ht. apply orb_true_iff in Ht as [Ht | Ht].
    + apply Z.eqb_eq in Ht. left. congruence.
    + apply Z.leb_le in Ht. right. lia.
  - intros [Hl | Hten]; apply orb_true_iff.
    + left. apply Z.eqb_eq. congruence.
    + right. apply Z.leb_le. lia.
  - exact Hnot.
Qed.

Lemma sound_turn lim draw req gs : sound gs -> sound (turn lim draw req gs).2.
Proof.
  intros Hs. destruct req as [|form|]; cbn [turn snd].
  - exact Hs.
  - destruct (finished gs) eqn:Hf; [exact Hs|].
    destruct (parsed lim form) as [g|]; [|exact Hs].
    destruct ((g <? MIN_NUM) || (g >? MAX_NUM)) eqn:Hout; [exact Hs|].
    cbn [snd]. apply sound_counted; [exact Hs | exact Hf |].
    apply orb_false_iff in Hout as [Hlo Hhi].
    apply Z.ltb_ge in Hlo. rewrite Z.gtb_ltb in Hhi. apply Z.ltb_ge in Hhi.
    split; assumption.
  - apply sound_fresh. apply randint_range. unfold MIN_NUM, MAX_NUM. lia.
Qed.


Lemma serve_no_trace lim draw req (s : gmap string pyval) gs :
  game_of s = Some gs -> leaves_trace lim (draw, req) = false ->
  (serve lim draw req s).2 = s.
Proof.
  intros Hs Hc. unfold leaves_trace, countable in Hc. cbn [snd] in Hc.
  destruct req as [|form|]; [| |discriminate].
  - rewrite (serve_index_game lim draw s gs Hs). reflexivity.
  - destruct (finished gs) eqn:Hf.
    + rewrite (serve_guess_over lim draw form s gs Hs Hf). reflexivity.
    + rewrite (serve_guess_rejected lim draw form s gs Hs Hf); [reflexivity|].
      intros g Hg Hin. rewrite Hg in Hc.
      rewrite (below_MIN_NUM g Hin), (above_MAX_NUM g Hin) in Hc. discriminate.
Qed.

Lemma turn_grows lim draw req gs :
  req <> POST_reset ->
  secret (turn lim draw req gs).2 = secret gs
  /\ history gs `prefix_of` history (turn lim draw req gs).2
  /\ attempts gs <= attempts (turn lim draw req gs).2 <= attempts gs + 1.
Proof.
  assert (Hsame : secret gs = secret gs
                  /\ history gs `prefix_of` history gs
                  /\ attempts gs <= attempts gs <= attempts gs + 1).
  { split; [reflexivity|]. split; [reflexivity | lia]. }
  intros Hreq. destruct req as [|form|]; [| |contradiction]; cbn [turn snd].
  - exact Hsame.
  - destruct (finished gs); [exact Hsame|].
    destruct (parsed lim form) as [g|]; [|exact Hsame].
    destruct ((g <? MIN_NUM) || (g >? MAX_NUM)); [exact Hsame|].
    cbn [snd counted secret history attempts].
    split; [reflexivity|]. split; [apply prefix_app_r; reflexivity | lia].
Qed.

Lemma parsed_decimal_upto lim (n : nat) :
  (n < 100)%nat ->
  parsed lim {[ "guess" := str_int (Z.of_nat n + 1) ]} = Some (Z.of_nat n + 1).
Proof.
  intros Hn.
  do 100 (destruct n as [|n]; [vm_compute; reflexivity|]).
  lia.
Qed.

Lemma lstrip_all f (l : list ascii) :
  Forall (fun c => f c = true) l -> lstrip f l = [].
Proof.
  induction 1 as [|c l Hc _ IH]; [reflexivity|]. cbn. rewrite Hc. exact IH.
Qed.

Lemma lstrip_app_all f (p l : list ascii) :
  Forall (fun c => f c = true) p -> lstrip f (p ++ l) = lstrip f l.
Proof.
  induction 1 as [|c p Hc _ IH]; [reflexivity|]. cbn. rewrite Hc. exact IH.
Qed.

Lemma lstrip_app f (l p : list ascii) :
  lstrip f (l ++ p) =
    match lstrip f l with [] => lstrip f p | _ :: _ => lstrip f l ++ p end.
Proof.
  induction l as [|c l IH]; cbn.
  - destruct (lstrip f p); reflexivity.
  - destruct (f c); [exact IH | reflexivity].
Qed.

Lemma rstrip_app_all f (l p : list ascii) :
  Forall (fun c => f c = true) p -> rstrip f (l ++ p) = rstrip f l.
Proof.
  intros Hp. unfold rstrip. rewrite rev_app_distr.
  rewrite lstrip_app_all; [reflexivity|].
  apply Forall_forall. intros c Hc. rewrite Forall_forall in Hp. apply Hp.
  apply list_elem_of_In. apply list_elem_of_In in Hc. apply in_rev. exact Hc.
Qed.

Lemma list_ascii_of_string_app (a b : string) :
  list_ascii_of_string (a ++ b)%string =
  list_ascii_of_string a ++ list_ascii_of_string b.
Proof.
  induction a as [|c a IH]; [reflexivity|].
  change (c :: list_ascii_of_string (a ++ b)%string =
          c :: (list_ascii_of_string a ++ list_ascii_of_string b)).
  f_equal. exact IH.
Qed.

Lemma strip_padded (pad1 text pad2 : string) :
  Forall (fun c => isspace c = true) (list_ascii_of_string pad1) ->
  Forall (fun c => isspace c = true) (list_ascii_of_string pad2) ->
  strip (pad1 ++ text ++ pad2)%string = strip text.
Proof.
  intros H1 H2. unfold strip. f_equal.
  rewrite !list_ascii_of_string_app, lstrip_app_all by exact H1.
  rewrite lstrip_app.
  destruct (lstrip isspace (list_ascii_of_string text)) as [|c l] eqn:Ht.
  - rewrite (lstrip_all _ _ H2). reflexivity.
  - apply rstrip_app_all. exact H2.
Qed.

Lemma parsed_blank lim (form : gmap string string) :
  (forall text, form !! "guess" = Some text ->
                Forall (fun c => isspace c = true) (list_ascii_of_string text)) ->
  parsed lim form = None.
Proof.
  intros Hblank. unfold parsed.
  assert (Hstrip : strip (default "" (form !! "guess")) = "").
  { unfold strip. destruct (form !! "guess") as [text|] eqn:Hf; cbn.
    - rewrite (lstrip_all _ _ (Hblank text eq_refl)). reflexivity.
    - reflexivity. }
  rewrite Hstrip. reflexivity.
Qed.

Lemma session_of_other_keys (gs : GameSession) k :
  k ∉ game_keys -> session_of gs !! k = None.
Proof.
  unfold game_keys, session_of. intros Hk.
  apply not_elem_of_cons in Hk as [H1 Hk].
  apply not_elem_of_cons in Hk as [H2 Hk].
  apply not_elem_of_cons in Hk as [H3 Hk].
  apply not_elem_of_cons in Hk as [H4 _].
  rewrite !lookup_insert_ne by done. apply lookup_singleton_ne. done.
Qed.
(** ** Further properties

    Properties of the handlers beyond those of the specification, read
    off the source. *)

(** X1. A view or a guess on a session that has no secret yet gives the
    reply and the session it gives right after a reset with the same
    draw: both handlers call [init_game] first and go on with the new
    game, so the first guess is already counted. *)
Theorem first_request_starts_game lim draw req (s : gmap string pyval) :
  s !! "secret" = None -> req <> POST_reset ->
  serve lim draw req s = serve lim draw req (serve lim draw POST_reset s).2.
Proof.
  intros Hn Hreq. rewrite serve_reset_started. cbn [snd].
  apply serve_new_session; assumption.
Qed.

(** The first request of a player is the guess 7. *)
Lemma first_request_starts_game_witness :
  serve 4300 141 (POST_guess (form_of "7")) ∅
  = serve 4300 141 (POST_guess (form_of "7")) (serve 4300 141 POST_reset ∅).2.
Proof.
  apply (first_request_starts_game 4300 141 (POST_guess (form_of "7")) ∅).
  - reflexivity.
  - discriminate.
Defined.

(** X2. Whatever the session holds and whatever is requested, a key
    other than [secret], [attempts], [history] and [finished] keeps its
    value (or stays absent) through every run of requests. *)
Theorem other_keys_untouched lim (reqs : list (Z * Request))
    (s : gmap string pyval) k :
  k ∉ game_keys -> (play lim reqs s).2 !! k = s !! k.
Proof.
  intros Hk. revert s. induction reqs as [|[draw req] reqs IH]; intros s.
  - reflexivity.
  - cbn [play]. pose proof (serve_other_keys lim draw req s k Hk) as Hstep.
    destruct (serve lim draw req s) as [reply s1]. cbn [snd] in Hstep.
    specialize (IH s1). destruct (play lim reqs s1) as [replies s2].
    cbn [snd] in *. congruence.
Qed.

(** The long visit and a key of the framework. *)
Lemma other_keys_untouched_witness :
  (play 4300 long_visit (session_of game_after_three)).2 !! "_permanent"
  = session_of game_after_three !! "_permanent".
Proof.
  apply (other_keys_untouched 4300 long_visit (session_of game_after_three)
           "_permanent").
  vm_compute. intros H. repeat (inversion H as [|? ? ? H']; clear H; rename H' into H).
Defined.

(** X3. A reset forgets the game: two sessions that agree on the keys
    other than the four of the game are the same session after a reset
    with the same draw. *)
Theorem reset_forgets_game lim draw (s1 s2 : gmap string pyval) :
  (forall k, k ∉ game_keys -> s1 !! k = s2 !! k) ->
  (serve lim draw POST_reset s1).2 = (serve lim draw POST_reset s2).2.
Proof.
  intros Hsame. rewrite !serve_reset_started. cbn [snd].
  unfold started, init_game, bind, setitem. cbn [snd data].
  apply map_eq. intros k.
  destruct (decide (k = "finished")) as [-> | H1]; [exec; reflexivity|].
  destruct (decide (k = "history")) as [-> | H2]; [exec; reflexivity|].
  destruct (decide (k = "attempts")) as [-> | H3]; [exec; reflexivity|].
  destruct (decide (k = "secret")) as [-> | H4]; [exec; reflexivity|].
  rewrite !lookup_insert_ne by done. apply Hsame.
  unfold game_keys. rewrite !not_elem_of_cons.
  repeat split; try assumption. apply not_elem_of_nil.
Qed.

(** A won game and no session at all. *)
Lemma reset_forgets_game_witness :
  (serve 4300 141 POST_reset (session_of game_won)).2
  = (serve 4300 141 POST_reset ∅).2.
Proof.
  apply (reset_forgets_game 4300 141 (session_of game_won) ∅).
  intros k Hk. rewrite (session_of_other_keys game_won k Hk). reflexivity.
Defined.

(** X4. From a session without a game, after one request or more, the
    counter of attempts is the length of the history, and the history
    holds ten guesses at most. *)
Theorem history_records_attempts lim (reqs : list (Z * Request))
    (s : gmap string pyval) :
  s !! "secret" = None -> reqs <> [] ->
  exists gs,
    game_of (play lim reqs s).2 = Some gs
    /\ attempts gs = Z.of_nat (length (history gs))
    /\ (length (history gs) <= 10)%nat.
Proof.
  intros Hn Hreqs.
  destruct (play_invariant_new lim sound sound_fresh (sound_turn lim)
              reqs s Hn Hreqs) as (gs & Hgs & Hsound).
  destruct Hsound as (_ & Hlen & _ & Hmax & _).
  exists gs. split; [exact Hgs|]. split; [exact Hlen|].
  unfold MAX_ATTEMPTS in Hmax. lia.
Qed.

(** The long visit of a new player. *)
Lemma history_records_attempts_witness :
  exists gs,
    game_of (play 4300 long_visit ∅).2 = Some gs
    /\ attempts gs = Z.of_nat (length (history gs))
    /\ (length (history gs) <= 10)%nat.
Proof.
  apply (history_records_attempts 4300 long_visit ∅).
  - reflexivity.
  - discriminate.
Defined.

(** X5. From a session without a game, after one request or more, the
    secret and every guess in the history are numbers of 1..100. *)
Theorem numbers_stay_in_range lim (reqs : list (Z * Request))
    (s : gmap string pyval) :
  s !! "secret" = None -> reqs <> [] ->
  exists gs,
    game_of (play lim reqs s).2 = Some gs
    /\ in_range (secret gs) /\ Forall in_range (history gs).
Proof.
  intros Hn Hreqs.
  destruct (play_invariant_new lim sound sound_fresh (sound_turn lim)
              reqs s Hn Hreqs) as (gs & Hgs & Hsound).
  exists gs. split; [exact Hgs|]. split; apply Hsound.
Qed.

(** The long visit of a new player. *)
Lemma numbers_stay_in_range_witness :
  exists gs,
    game_of (play 4300 long_visit ∅).2 = Some gs
    /\ in_range (secret gs) /\ Forall in_range (history gs).
Proof.
  apply (numbers_stay_in_range 4300 long_visit ∅).
  - reflexivity.
  - discriminate.
Defined.

(** X6. From a session without a game, after one request or more, the
    game is finished exactly when the last guess of the history is the
    secret or ten attempts were made; and the secret is nowhere in the
    history but, possibly, at its end. *)
Theorem finished_exactly_when lim (reqs : list (Z * Request))
    (s : gmap string pyval) :
  s !! "secret" = None -> reqs <> [] ->
  exists gs,
    game_of (play lim reqs s).2 = Some gs
    /\ (finished gs = true <->
        last (history gs) = Some (secret gs) \/ attempts gs = MAX_ATTEMPTS)
    /\ secret gs ∉ removelast (history gs).
Proof.
  intros Hn Hreqs.
  destruct (play_invariant_new lim sound sound_fresh (sound_turn lim)
              reqs s Hn Hreqs) as (gs & Hgs & Hsound).
  exists gs. split; [exact Hgs|]. split; apply Hsound.
Qed.

(** The long visit of a new player. *)
Lemma finished_exactly_when_witness :
  exists gs,
    game_of (play 4300 long_visit ∅).2 = Some gs
    /\ (finished gs = true <->
        last (history gs) = Some (secret gs) \/ attempts gs = MAX_ATTEMPTS)
    /\ secret gs ∉ removelast (history gs).
Proof.
  apply (finished_exactly_when 4300 long_visit ∅).
  - reflexivity.
  - discriminate.
Defined.



(** X8. A finished game stays as it is until a reset: any run of views
    and guesses leaves the session of a finished game as it was. *)
Theorem finished_game_stays lim (reqs : list (Z * Request))
    (s : gmap string pyval) gs :
  game_of s = Some gs -> finished gs = true ->
  forallb keeps_game reqs = true ->
  (play lim reqs s).2 = s.
Proof.
  intros Hs Hf. induction reqs as [|[draw req] reqs IH]; intros Hreqs.
  - reflexivity.
  - cbn [forallb] in Hreqs. apply andb_true_iff in Hreqs as [Hreq Hreqs].
    cbn [play]. destruct req as [|form|]; [| |discriminate].
    + rewrite (serve_index_game lim draw s gs Hs). specialize (IH Hreqs).
      destruct (play lim reqs s) as [replies s2]. exact IH.
    + rewrite (serve_guess_over lim draw form s gs Hs Hf). specialize (IH Hreqs).
      destruct (play lim reqs s) as [replies s2]. exact IH.
Qed.

(** Views and guesses after the game was won. *)
Lemma finished_game_stays_witness :
  (play 4300 quiet_visit (session_of game_won)).2 = session_of game_won.
Proof.
  apply (finished_game_stays 4300 quiet_visit (session_of game_won) game_won).
  - reflexivity.
  - reflexivity.
  - reflexivity.
Defined.

(** X9. On a session that holds a game, the views and the guesses that
    do not parse or are out of range can be left out of a run: the
    session at the end is the same without them. *)
Theorem traceless_requests_drop_out lim (reqs : list (Z * Request))
    (s : gmap string pyval) gs :
  game_of s = Some gs ->
  (play lim reqs s).2 =
  (play lim (filter (fun r => leaves_trace lim r = true) reqs) s).2.
Proof.
  revert s gs. induction reqs as [|[draw req] reqs IH]; intros s gs Hs.
  - reflexivity.
  - destruct (leaves_trace lim (draw, req)) eqn:Hc.
    + rewrite filter_cons_True by exact Hc. cbn [play].
      destruct (serve_turn lim draw req s gs Hs) as (s1 & Hserve & Hs1).
      rewrite Hserve. specialize (IH s1 _ Hs1).
      destruct (play lim reqs s1) as [r1 t1].
      destruct (play lim (filter _ reqs) s1) as [r2 t2].
      exact IH.
    + rewrite filter_cons_False by (rewrite Hc; discriminate). cbn [play].
      pose proof (serve_no_trace lim draw req s gs Hs Hc) as Hsame.
      destruct (serve lim draw req s) as [reply s1].
      cbn [snd] in Hsame. subst s1. specialize (IH s gs Hs).
      destruct (play lim reqs s) as [r1 t1].
      exact IH.
Qed.

(** The long visit to a game after three attempts. *)
Lemma traceless_requests_drop_out_witness :
  (play 4300 long_visit (session_of game_after_three)).2 =
  (play 4300 (filter (fun r => leaves_trace 4300 r = true) long_visit)
     (session_of game_after_three)).2.
Proof.
  apply (traceless_requests_drop_out 4300 long_visit
           (session_of game_after_three) game_after_three).
  reflexivity.
Defined.

(** X10. Through a run of views and guesses the secret stays, the
    history of before is a prefix of the history after, and the counter
    of attempts does not go down. *)
Theorem history_only_grows lim (reqs : list (Z * Request))
    (s : gmap string pyval) gs :
  game_of s = Some gs -> forallb keeps_game reqs = true ->
  exists gs',
    game_of (play lim reqs s).2 = Some gs'
    /\ secret gs' = secret gs
    /\ history gs `prefix_of` history gs'
    /\ attempts gs <= attempts gs'.
Proof.
  intros Hs Hreqs.
  apply (play_invariant_on lim (fun req => req <> POST_reset)
           (fun gs' => secret gs' = secret gs
                       /\ history gs `prefix_of` history gs'
                       /\ attempts gs <= attempts gs') ) with (gs := gs).
  - intros draw req g Hreq (Hsec & Hpre & Hatt).
    destruct (turn_grows lim draw req g Hreq) as (Hsec' & Hpre' & Hatt').
    split; [congruence|]. split; [etransitivity; eassumption | lia].
  - apply Forall_forall. intros [draw req] Hin.
    rewrite forallb_forall in Hreqs.
    apply list_elem_of_In in Hin. specialize (Hreqs _ Hin).
    unfold keeps_game in Hreqs. cbn [snd] in *. intros ->. discriminate.
  - exact Hs.
  - split; [reflexivity|]. split; [reflexivity | lia].
Qed.

(** Views and guesses on a game after three attempts. *)
Lemma history_only_grows_witness :
  exists gs',
    game_of (play 4300 quiet_visit (session_of game_after_three)).2 = Some gs'
    /\ secret gs' = secret game_after_three
    /\ history game_after_three `prefix_of` history gs'
    /\ attempts game_after_three <= attempts gs'.
Proof.
  apply (history_only_grows 4300 quiet_visit (session_of game_after_three)
           game_after_three).
  - reflexivity.
  - reflexivity.
Defined.

(** X11. Every page a handler renders for a session that holds a game
    (with the attempts within their bounds) shows the game as it is
    stored after the request: the attempts left, the finished flag, the
    secret and the history handed to the template are those of the
    stored game. The secret block of the template, which is shown when
    [finished] is true, therefore only shows for a finished game. *)
Theorem page_shows_stored_game lim draw req (s s' : gmap string pyval) gs
    remaining message alert_type fin sec his :
  game_of s = Some gs -> bounded gs ->
  serve lim draw req s =
    (Sent (render_template_string remaining message alert_type fin sec his),
     s') ->
  exists gs',
    game_of s' = Some gs'
    /\ remaining = MAX_ATTEMPTS - attempts gs'
    /\ fin = VBool (finished gs')
    /\ sec = VInt (secret gs')
    /\ his = VList (history gs').
Proof.
  intros Hs [Hrange Hopen] Hserve.
  destruct (serve_turn lim draw req s gs Hs) as (s1 & Hserve1 & Hs1).
  rewrite Hserve in Hserve1. injection Hserve1 as Hpage <-.
  exists (turn lim draw req gs).2. split; [exact Hs1|].
  destruct req as [|form|]; cbn [turn fst snd] in *.
  - injection Hpage as -> -> -> -> -> ->. auto.
  - destruct (finished gs) eqn:Hf; [discriminate|].
    destruct (parsed lim form) as [g|].
    + destruct ((g <? MIN_NUM) || (g >? MAX_NUM)).
      * cbn [fst snd] in *. injection Hpage as -> -> -> -> -> ->.
        rewrite Hf. auto.
      * cbn [fst snd] in *. unfold page_after, counted in *.
        cbn [attempts finished secret history].
        destruct (g =? secret gs).
        -- injection Hpage as -> -> -> -> -> ->. auto.
        -- destruct (MAX_ATTEMPTS <=? attempts gs + 1) eqn:Hspent.
           ++ injection Hpage as -> -> -> -> -> ->.
              apply Z.leb_le in Hspent. specialize (Hopen eq_refl).
              repeat split. lia.
           ++ injection Hpage as -> -> -> -> -> ->. auto.
    + cbn [fst snd] in *. injection Hpage as -> -> -> -> -> ->.
      rewrite Hf. auto.
  - discriminate.
Qed.

(** The tenth attempt misses. *)
Lemma page_shows_stored_game_witness :
  exists gs',
    game_of (serve 4300 0 (POST_guess (form_of "10"))
               (session_of game_after_nine)).2 = Some gs'
    /\ 0 = MAX_ATTEMPTS - attempts gs'
    /\ VBool true = VBool (finished gs')
    /\ VInt 42 = VInt (secret gs')
    /\ VList [1; 2; 3; 4; 5; 6; 7; 8; 9; 10] = VList (history gs').
Proof.
  apply (page_shows_stored_game 4300 0 (POST_guess (form_of "10"))
           (session_of game_after_nine) _ game_after_nine 0
           (Some msg_exhausted) "danger").
  - reflexivity.
  - unfold bounded, MAX_ATTEMPTS. simpl. lia.
  - vm_compute. reflexivity.
Defined.

(** X12. Every number of 1..100 written in decimal, as [str] prints it,
    is read back by [guess] as that number, whatever the limit on the
    digits of a literal: every secret can be typed. *)
Theorem decimal_in_range_is_read lim (form : gmap string string) g :
  in_range g -> form !! "guess" = Some (str_int g) ->
  parsed lim form = Some g.
Proof.
  intros [Hlo Hhi] Hform. unfold MIN_NUM, MAX_NUM in *.
  pose proof (parsed_decimal_upto lim (Z.to_nat (g - 1))) as H.
  replace (Z.of_nat (Z.to_nat (g - 1)) + 1) with g in H by lia.
  unfold parsed in *. rewrite lookup_singleton_eq in H. rewrite Hform.
  apply H. lia.
Qed.

(** The number 100. *)
Lemma decimal_in_range_is_read_witness :
  parsed 4300 (form_of "100") = Some 100.
Proof.
  apply (decimal_in_range_is_read 4300 (form_of "100") 100).
  - unfold in_range, MIN_NUM, MAX_NUM. lia.
  - reflexivity.
Defined.

(** X13. White space around the text of the field does not change what
    [guess] reads: the field is stripped before it is parsed. *)
Theorem padding_is_ignored lim (form form' : gmap string string)
    (pad1 text pad2 : string) :
  Forall (fun c => isspace c = true) (list_ascii_of_string pad1) ->
  Forall (fun c => isspace c = true) (list_ascii_of_string pad2) ->
  form !! "guess" = Some text ->
  form' !! "guess" = Some (pad1 ++ text ++ pad2)%string ->
  parsed lim form' = parsed lim form.
Proof.
  intros H1 H2 Hf Hf'. unfold parsed. rewrite Hf, Hf'. cbn [default from_option id].
  rewrite (strip_padded pad1 text pad2 H1 H2). reflexivity.
Qed.

(** A tab and blanks around 42. *)
Lemma padding_is_ignored_witness :
  parsed 4300 (form_of "  42   ") = parsed 4300 (form_of "42").
Proof.
  apply (padding_is_ignored 4300 (form_of "42") (form_of "  42   ")
           "  " "42" "   ").
  - repeat constructor.
  - repeat constructor.
  - reflexivity.
  - reflexivity.
Defined.

(** X14. On a game that is not finished, a form without the field, or
    with a field that is empty or all white space, gets the warning for
    an invalid number, and the session is stored as it was. *)
Theorem blank_guess_is_invalid lim draw (form : gmap string string)
    (s : gmap string pyval) gs :
  game_of s = Some gs -> finished gs = false ->
  (forall text, form !! "guess" = Some text ->
                Forall (fun c => isspace c = true) (list_ascii_of_string text)) ->
  serve lim draw (POST_guess form) s =
    (Sent (render_template_string (MAX_ATTEMPTS - attempts gs)
             (Some msg_invalid) "warning" (VBool false) (VInt (secret gs))
             (VList (history gs))),
     s).
Proof.
  intros Hs Hf Hblank. pose proof (parsed_blank lim form Hblank) as Hp.
  rewrite (serve_guess_rejected lim draw form s gs Hs Hf).
  - rewrite Hp. reflexivity.
  - intros g Hg. congruence.
Qed.

(** A field of three blanks. *)
Lemma blank_guess_is_invalid_witness :
  serve 4300 0 (POST_guess (form_of "   ")) (session_of game_after_three) =
    (Sent (render_template_string 7 (Some "Masukkan angka valid.") "warning"
             (VBool false) (VInt 42) (VList [50; 25; 37])),
     session_of game_after_three).
Proof.
  apply (blank_guess_is_invalid 4300 0 (form_of "   ")
           (session_of game_after_three) game_after_three).
  - reflexivity.
  - reflexivity.
  - intros text Htext. vm_compute in Htext. injection Htext as <-.
    repeat constructor.
Defined.

(** X15. A session with a secret but without the key [attempts] (and
    not finished): the view reads the counter with a default and shows
    ten attempts left, while a guess that is rejected reads it without
    one and raises [KeyError]. The session stays as it was in both
    cases. *)
Theorem missing_attempts_key lim draw form (s : gmap string pyval) :
  is_Some (s !! "secret") -> s !! "attempts" = None ->
  truthy (default (VBool false) (s !! "finished")) = false ->
  (forall g, parsed lim form = Some g -> ~ in_range g) ->
  serve lim draw GET_index s =
    (Sent (render_template_string MAX_ATTEMPTS None "info"
             (default (VBool false) (s !! "finished"))
             (default VNone (s !! "secret"))
             (default VNone (s !! "history"))),
     s)
  /\ serve lim draw (POST_guess form) s = (ServerError (KeyError "attempts"), s).
Proof.
  intros [v Hv] Ha Hf Hbad. split.
  - unfold_handlers. exec. reflexivity.
  - unfold parsed in Hbad. unfold_handlers. exec.
    cbn [default from_option id] in Hf. rewrite Hf.
    destruct (int lim _) as [g|]; exec.
    + rewrite (out_of_range g (Hbad g eq_refl)). exec. reflexivity.
    + reflexivity.
Qed.

(** A session holding a secret only. *)
Lemma missing_attempts_key_witness :
  serve 4300 0 GET_index {[ "secret" := VInt 42 ]} =
    (Sent (render_template_string 10 None "info" (VBool false) (VInt 42) VNone),
     {[ "secret" := VInt 42 ]})
  /\ serve 4300 0 (POST_guess (form_of "abc")) {[ "secret" := VInt 42 ]}
     = (ServerError (KeyError "attempts"), {[ "secret" := VInt 42 ]}).
Proof.
  assert (Hsecret : is_Some (({[ "secret" := VInt 42 ]} : gmap string pyval)
                              !! "secret"))
    by (vm_compute; eexists; reflexivity).
  assert (Hbad : forall g, parsed 4300 (form_of "abc") = Some g -> ~ in_range g)
    by (intros g Hg; vm_compute in Hg; discriminate Hg).
  exact (missing_attempts_key 4300 0 (form_of "abc") {[ "secret" := VInt 42 ]}
           Hsecret eq_refl eq_refl Hbad).
Defined.

(** X16. The random generator only matters when a game is made: on a
    session that has a secret, a view or a guess gives the same reply and
    the same session whatever the generator would have drawn. *)
Theorem draw_only_matters_for_new_games lim draw1 draw2 req
    (s : gmap string pyval) :
  is_Some (s !! "secret") -> req <> POST_reset ->
  serve lim draw1 req s = serve lim draw2 req s.
Proof.
  intros [v Hv] Hreq. destruct req as [|form|]; [| |contradiction].
  - unfold_handlers. exec. reflexivity.
  - unfold_handlers. exec. reflexivity.
Qed.

(** A guess on a game after three attempts, with two draws. *)
Lemma draw_only_matters_for_new_games_witness :
  serve 4300 5 (POST_guess (form_of "42")) (session_of game_after_three)
  = serve 4300 77 (POST_guess (form_of "42")) (session_of game_after_three).
Proof.
  apply (draw_only_matters_for_new_games 4300 5 77 (POST_guess (form_of "42"))
           (session_of game_after_three)).
  - vm_compute. eexists. reflexivity.
  - discriminate.
Defined.

(** ** Examples *)

(** The example of the specification: secret 42 and the guesses 10, 70
    and 42 give "too low", "too high" and success at the third attempt. *)
Example play_10_70_42 :
  play 4300
    (map guess_request [(0, form_of "10"); (0, form_of "70"); (0, form_of "42")])
    (session_of (fresh 42))
  = ([Sent (render_template_string 9 (Some "Terlalu kecil. Sisa tebakan: 9.")
              "info" (VBool false) (VInt 42) (VList [10]));
      Sent (render_template_string 8 (Some "Terlalu besar. Sisa tebakan: 8.")
              "info" (VBool false) (VInt 42) (VList [10; 70]));
      Sent (render_template_string 7
              (Some "Selamat! Tebakan Anda benar dalam 3 percobaan.")
              "success" (VBool true) (VInt 42) (VList [10; 70; 42]))],
     session_of {| secret := 42; attempts := 3; history := [10; 70; 42];
                   finished := true |}).
Proof. vm_compute. reflexivity. Qed.

(** The first visit creates the game, and the first guess may come
    without a visit before it. *)
Example first_requests :
  (serve 4300 141 GET_index ∅).2 = session_of (fresh 42)
  /\ (serve 4300 141 (POST_guess (form_of "7")) ∅).2
     = session_of {| secret := 42; attempts := 1; history := [7];
                     finished := false |}.
Proof. split; vm_compute; reflexivity. Qed.

(** An input out of range gets the other warning. *)
Example guess_out_of_range :
  (serve 4300 0 (POST_guess (form_of "101")) (session_of (fresh 42))).1
  = Sent (render_template_string 10 (Some "Angka harus antara 1 dan 100.")
            "warning" (VBool false) (VInt 42) (VList [])).
Proof. vm_compute. reflexivity. Qed.

(** A form without the field is read as the empty string. *)
Example guess_without_field :
  serve 4300 0 (POST_guess ∅) (session_of (fresh 42))
  = (Sent (render_template_string 10 (Some "Masukkan angka valid.") "warning"
             (VBool false) (VInt 42) (VList [])),
     session_of (fresh 42)).
Proof. vm_compute. reflexivity. Qed.

Example int_samples :
  map (Py.int 4300) ["42"; " 42 "; "+7"; "-3"; "1_000"; "007"; ""; "abc";
                     "4 2"; "1__0"; "_1"; "1_"; "- 5"; "0x10"; "12.5"; "+"]
  = [Some 42; Some 42; Some 7; Some (-3); Some 1000; Some 7; None; None;
     None; None; None; None; None; None; None; None].
Proof. vm_compute. reflexivity. Qed.

Example str_samples :
  map Py.str [VNone; VBool true; VInt (-5); VInt 0; VList [10; 70; 42]]
  = ["None"; "True"; "-5"; "0"; "[10, 70, 42]"].
Proof. vm_compute. reflexivity. Qed.
